(** * Filtering and aggregation semantics of [mini_genomics_dashboard.py]

    The script builds a fixed eight-row table of genome samples, reads three
    sidebar widgets (a date range and two multi-selections), keeps the rows of
    the table that pass all three filters, and draws three charts over the
    kept rows, each guarded by an emptiness test.

    The development follows the script from top to bottom:
    - [Datetime]: calendar dates as [datetime.date] has them and the
      nanosecond timestamps [pd.to_datetime] turns them into;
    - [Pandas]: the column operations the script calls on its table
      (comparison of a column with a scalar, [isin], [&], selection by a
      boolean mask, [value_counts], [reset_index]);
    - the script itself: [load_data], [df], [df_filtered], [variant_counts]
      and the three chart blocks, run in a state-and-exception monad over the
      store of table objects and the list of page elements. *)

From Stdlib Require Import ZArith String Ascii Bool List Lia.
From Stdlib Require Import Sorting.Sorted Sorting.Permutation DecimalString.
From ExtLib Require Import Structures.Monad Data.Monads.EitherMonad.
Import ListNotations.
Import MonadNotation.
Local Open Scope monad_scope.
Local Open Scope string_scope.
Local Open Scope Z_scope.

(** Python exceptions the script can meet. *)
Inductive exn : Type :=
| ValueError (msg : string)
| NameError (msg : string).

(** A computation that returns an [A] or raises. *)
Abbreviation result := (sum exn).

(* ===================================================================== *)
(** * Dates and timestamps *)
(* ===================================================================== *)

Module Datetime.

(** [datetime.date(year, month, day)], what [st.date_input] hands back. *)
Record date : Type := mkdate { year : Z; month : Z; day : Z }.

Definition is_leap (y : Z) : bool :=
  (y mod 4 =? 0) && (negb (y mod 100 =? 0) || (y mod 400 =? 0)).

Definition days_in_month (y m : Z) : Z :=
  match m with
  | 2 => if is_leap y then 29 else 28
  | 4 | 6 | 9 | 11 => 30
  | _ => 31
  end.

(** Days in the years before [y], counted from year 1. *)
Definition days_before_year (y : Z) : Z :=
  let y' := y - 1 in
  y' * 365 + y' / 4 - y' / 100 + y' / 400.

(** Days of year [y] before the first of month [m]: the table of the
    standard library, one more after February of a leap year. *)
Definition days_before_month (y m : Z) : Z :=
  match m with
  | 1 => 0 | 2 => 31 | 3 => 59 | 4 => 90 | 5 => 120 | 6 => 151
  | 7 => 181 | 8 => 212 | 9 => 243 | 10 => 273 | 11 => 304 | 12 => 334
  | _ => -1
  end + (if (2 <? m) && is_leap y then 1 else 0).

(** [date.toordinal()]: 0001-01-01 is day 1. *)
Definition toordinal (d : date) : Z :=
  days_before_year (year d) + days_before_month (year d) (month d) + day d.

(** A date the [date] constructor accepts. *)
Definition valid (d : date) : bool :=
  (1 <=? year d) && (year d <=? 9999) &&
  (1 <=? month d) && (month d <=? 12) &&
  (1 <=? day d) && (day d <=? days_in_month (year d) (month d)).

(** Python orders dates as (year, month, day) triples. *)
Definition date_ltb (a b : date) : bool :=
  (year a <? year b) ||
  ((year a =? year b) &&
   ((month a <? month b) || ((month a =? month b) && (day a <? day b)))).

Definition date_lt (a b : date) : Prop := date_ltb a b = true.

(** [pd.Timestamp]: nanoseconds since 1970-01-01T00:00:00. *)
Definition Timestamp : Type := Z.

Definition epoch_ordinal : Z := 719163.
Definition ns_per_day : Z := 86400 * 1000000000.

(** [pd.to_datetime(d)] for a [datetime.date]: midnight of that day.
    Timestamps are taken in [Z]; the date picker only offers dates between
    the first and the last date of the table, far inside the 64-bit range. *)
Definition to_datetime (d : date) : Timestamp :=
  (toordinal d - epoch_ordinal) * ns_per_day.

(** ** Reading a [YYYY-MM-DD] string *)

Definition digit (c : ascii) : option Z :=
  let n := Z.of_N (N_of_ascii c) in
  if (48 <=? n) && (n <=? 57) then Some (n - 48) else None.

Fixpoint number (cs : list ascii) (acc : Z) : option Z :=
  match cs with
  | [] => Some acc
  | c :: cs' =>
      match digit c with
      | Some n => number cs' (10 * acc + n)
      | None => None
      end
  end.

Definition is_dash (c : ascii) : bool := Ascii.eqb c "-"%char.

(** The ISO calendar-date format, the only one the table uses. *)
Definition parse_iso (s : string) : option date :=
  match list_ascii_of_string s with
  | [y1; y2; y3; y4; s1; m1; m2; s2; d1; d2] =>
      if is_dash s1 && is_dash s2 then
        match number [y1; y2; y3; y4] 0, number [m1; m2] 0, number [d1; d2] 0 with
        | Some y, Some m, Some d =>
            let r := mkdate y m d in
            if valid r then Some r else None
        | _, _, _ => None
        end
      else None
  | _ => None
  end.

(** [pd.to_datetime(s)] for a string. *)
Definition to_datetime_str (s : string) : result Timestamp :=
  match parse_iso s with
  | Some d => inr (to_datetime d)
  | None => inl (ValueError ("Unknown datetime string format: " ++ s))
  end.

End Datetime.

Import Datetime.

(* ===================================================================== *)
(** * The part of pandas the script uses *)
(* ===================================================================== *)

Module Pandas.

(** A column is the list of its cells, in row order.  A column taken out of
    a table shares the table's index, so the index is kept once, in the
    table. *)

(** The samples table: a row index and the five named columns.  The type of
    the [Date] cells is a parameter: strings as written in the literal,
    timestamps once converted. *)
Record DataFrame (D : Type) : Type := mkDataFrame {
  index : list nat;
  Sample_ID : list string;
  Date : list D;
  Region : list string;
  Variant : list string;
  Genome_Length : list Z
}.

Arguments mkDataFrame {D}.
Arguments index {D}.
Arguments Sample_ID {D}.
Arguments Date {D}.
Arguments Region {D}.
Arguments Variant {D}.
Arguments Genome_Length {D}.

(** [len(df)]. *)
Definition len {D} (df : DataFrame D) : nat := length (index df).

(** [pd.DataFrame(data)] for a dict of five lists: a fresh [RangeIndex];
    lists of different lengths are refused. *)
Definition of_dict {D} (sample_id : list string) (date : list D)
    (region variant : list string) (genome_length : list Z)
  : result (DataFrame D) :=
  let n := length sample_id in
  if (length date =? n)%nat && (length region =? n)%nat &&
     (length variant =? n)%nat && (length genome_length =? n)%nat
  then inr (mkDataFrame (seq 0 n) sample_id date region variant genome_length)
  else inl (ValueError "All arrays must be of the same length").

(** [df['Date'] = v]: the column is replaced, the others stay. *)
Definition setitem_Date {D D'} (df : DataFrame D) (v : list D')
  : result (DataFrame D') :=
  if (length v =? len df)%nat
  then inr (mkDataFrame (index df) (Sample_ID df) v (Region df) (Variant df)
              (Genome_Length df))
  else inl (ValueError "Length of values does not match length of index").

(** [pd.to_datetime(column)]: every cell is read, the first bad one raises. *)
Fixpoint to_datetime_column (s : list string) : result (list Timestamp) :=
  match s with
  | [] => inr []
  | x :: s' =>
      t <- to_datetime_str x ;;
      ts <- to_datetime_column s' ;;
      ret (t :: ts)
  end.

(** [s >= t] and [s <= t] for a timestamp column and a timestamp. *)
Definition ge (s : list Timestamp) (t : Timestamp) : list bool :=
  map (fun x => t <=? x) s.

Definition le (s : list Timestamp) (t : Timestamp) : list bool :=
  map (fun x => x <=? t) s.

(** [s.isin(values)]. *)
Definition isin (s : list string) (values : list string) : list bool :=
  map (fun x => existsb (String.eqb x) values) s.

(** [a & b] on two boolean columns over the same index. *)
Fixpoint and_ (a b : list bool) : list bool :=
  match a, b with
  | x :: a', y :: b' => (x && y) :: and_ a' b'
  | _, _ => []
  end.

(** The cells of a column at the rows where the mask is true. *)
Fixpoint take {A} (mask : list bool) (col : list A) : list A :=
  match mask, col with
  | b :: mask', x :: col' =>
      if b then x :: take mask' col' else take mask' col'
  | _, _ => []
  end.

(** [df[mask]] for a boolean mask: a new table with the rows where the mask
    is true, in order, under their old index labels.  A mask of another
    length is refused. *)
Definition getitem_mask {D} (df : DataFrame D) (mask : list bool)
  : result (DataFrame D) :=
  if (length mask =? len df)%nat
  then inr (mkDataFrame (take mask (index df)) (take mask (Sample_ID df))
              (take mask (Date df)) (take mask (Region df))
              (take mask (Variant df)) (take mask (Genome_Length df)))
  else inl (ValueError "Item wrong length").

(** ** Counting the values of a column *)

(** The table of counts [value_counts] fills while it walks the column: a
    value seen before has its count raised, a new one is entered at the end
    with count one. *)
Fixpoint bump (k : string) (t : list (string * nat)) : list (string * nat) :=
  match t with
  | [] => [(k, 1%nat)]
  | (k', c) :: t' =>
      if String.eqb k k' then (k', S c) :: t' else (k', c) :: bump k t'
  end.

Definition count_table (s : list string) : list (string * nat) :=
  fold_left (fun t k => bump k t) s [].

(** Sorting the entries by count, largest first.  Entries of equal count
    keep the order of the table; no statement below depends on it. *)
Fixpoint insert_desc (e : string * nat) (t : list (string * nat))
  : list (string * nat) :=
  match t with
  | [] => [e]
  | e' :: t' =>
      if (snd e' <=? snd e)%nat then e :: t else e' :: insert_desc e t'
  end.

Definition sort_desc (t : list (string * nat)) : list (string * nat) :=
  fold_right insert_desc [] t.

(** [s.value_counts()]: a series whose index holds the distinct values of
    [s] and whose values are their counts, by decreasing count.  It is kept
    as the list of its (label, value) pairs. *)
Definition value_counts (s : list string) : list (string * nat) :=
  sort_desc (count_table s).

(** A table of two columns, a string one and a count one, with the names of
    its columns: what [reset_index] makes of a [value_counts] series. *)
Record CountsFrame : Type := mkCountsFrame {
  cindex : list nat;
  columns : list string;
  labels : list string;
  counts : list nat
}.

(** [series.reset_index()]: the index becomes the first column, under the
    name of the counted column; the counts become the second, named
    [count]; the rows are numbered afresh.  (Older versions of the library
    name the two columns [index] and the series name; line 105 of the script
    renames both in either case.) *)
Definition reset_index (name : string) (s : list (string * nat)) : CountsFrame :=
  mkCountsFrame (seq 0 (length s)) [name; "count"] (map fst s) (map snd s).

(** [frame.columns = names]: the names are replaced; a list of another
    length than the number of columns is refused. *)
Definition set_columns (c : CountsFrame) (names : list string) : result CountsFrame :=
  if (length names =? length (columns c))%nat
  then inr (mkCountsFrame (cindex c) names (labels c) (counts c))
  else inl (ValueError "Length mismatch: Expected axis has 2 elements").

End Pandas.

Import Pandas.

(** The table after [load_data]: dates are timestamps. *)
Abbreviation Frame := (DataFrame Timestamp).

(* ===================================================================== *)
(** * The script *)
(* ===================================================================== *)

(** Lines 33-46: the literal columns, the table built from them, and the
    [Date] column converted in place. *)
Definition load_data : result Frame :=
  df <- of_dict
          ["BR001"; "BR002"; "BR003"; "MX001"; "MX002"; "US001"; "US002"; "US003"]
          ["2021-01-15"; "2021-02-10"; "2021-03-05"; "2021-02-20";
           "2021-03-12"; "2021-01-25"; "2021-02-15"; "2021-03-02"]
          ["Brazil"; "Brazil"; "Brazil"; "Mexico"; "Mexico"; "USA"; "USA"; "USA"]
          ["Gamma"; "Gamma"; "Delta"; "Delta"; "Omicron"; "Delta"; "Omicron"; "Gamma"]
          [29903; 29903; 29850; 29900; 29870; 29910; 29865; 29903] ;;
  dates <- to_datetime_column (Date df) ;;
  setitem_Date df dates.

(** Line 48: [df = load_data()].  The cache hands the same table to every
    run of the script. *)
Definition df : Frame :=
  Eval vm_compute in
    match load_data with
    | inr d => d
    | inl _ => mkDataFrame [] [] [] [] [] []
    end.

(** Lines 56-57: [df['Date'].min()] and [df['Date'].max()]; an empty column
    has neither. *)
Definition column_min (s : list Timestamp) : option Timestamp :=
  match s with
  | [] => None
  | x :: s' => Some (fold_left Z.min s' x)
  end.

Definition column_max (s : list Timestamp) : option Timestamp :=
  match s with
  | [] => None
  | x :: s' => Some (fold_left Z.max s' x)
  end.

Definition min_date : option Timestamp := column_min (Date df).
Definition max_date : option Timestamp := column_max (Date df).

(** Lines 66 and 74: the options of the two multi-selections, which are
    also their defaults: the distinct values of a column, sorted. *)
Fixpoint unique (s : list string) : list string :=
  match s with
  | [] => []
  | x :: s' => x :: filter (fun y => negb (String.eqb y x)) (unique s')
  end.

Fixpoint insert_sorted (x : string) (l : list string) : list string :=
  match l with
  | [] => [x]
  | y :: l' => if String.leb x y then x :: l else y :: insert_sorted x l'
  end.

Definition sorted (l : list string) : list string :=
  fold_right insert_sorted [] l.

Definition all_regions : list string := sorted (unique (Region df)).
Definition all_variants : list string := sorted (unique (Variant df)).

(** Line 82: [start_date, end_date = date_range].  The date picker returns a
    tuple; unpacking one that does not hold two dates raises. *)
Definition unpack2 {A} (t : list A) : result (A * A) :=
  match t with
  | [a; b] => inr (a, b)
  | [] | [_] => inl (ValueError "not enough values to unpack (expected 2)")
  | _ => inl (ValueError "too many values to unpack (expected 2)")
  end.

(** Lines 82-88: the four-way mask and the selection by it. *)
Definition df_filtered (df : Frame) (date_range : list date)
    (selected_regions selected_variants : list string) : result Frame :=
  '(start_date, end_date) <- unpack2 date_range ;;
  getitem_mask df
    (and_ (and_ (and_ (ge (Date df) (to_datetime start_date))
                      (le (Date df) (to_datetime end_date)))
                (isin (Region df) selected_regions))
          (isin (Variant df) selected_variants)).

(* ===================================================================== *)
(** * Rows *)
(* ===================================================================== *)

(** One row of the table, with its index label.  The fields carry the names
    of the sample's attributes. *)
Record Sample : Type := mkSample {
  label : nat;
  sample_id : string;
  collection_date : Timestamp;
  region : string;
  variant : string;
  genome_length : Z
}.

Definition Sample_eq_dec (a b : Sample) : {a = b} + {a <> b}.
Proof.
  decide equality;
    solve [apply Z.eq_dec | apply string_dec | apply Nat.eq_dec].
Defined.

(** The rows of a table, top to bottom ([df.itertuples()]). *)
Fixpoint zip_rows (ix : list nat) (ids : list string) (ds : list Timestamp)
    (rs vs : list string) (gs : list Z) : list Sample :=
  match ix, ids, ds, rs, vs, gs with
  | i :: ix', a :: ids', d :: ds', r :: rs', v :: vs', g :: gs' =>
      mkSample i a d r v g :: zip_rows ix' ids' ds' rs' vs' gs'
  | _, _, _, _, _, _ => []
  end.

Definition rows (d : Frame) : list Sample :=
  zip_rows (index d) (Sample_ID d) (Date d) (Region d) (Variant d)
    (Genome_Length d).

(** The table with the given rows. *)
Definition of_rows (l : list Sample) : Frame :=
  mkDataFrame (map label l) (map sample_id l) (map collection_date l)
    (map region l) (map variant l) (map genome_length l).

(** The three predicates of the filter, on one row. *)
Definition date_ok (start_date end_date : date) (r : Sample) : bool :=
  (to_datetime start_date <=? collection_date r) &&
  (collection_date r <=? to_datetime end_date).

Definition region_ok (selected_regions : list string) (r : Sample) : bool :=
  existsb (String.eqb (region r)) selected_regions.

Definition variant_ok (selected_variants : list string) (r : Sample) : bool :=
  existsb (String.eqb (variant r)) selected_variants.

Definition keeps (start_date end_date : date)
    (selected_regions selected_variants : list string) (r : Sample) : bool :=
  date_ok start_date end_date r && region_ok selected_regions r &&
  variant_ok selected_variants r.

(** ** Reading a table of counts *)

(** The count a table holds for a key, none when the key is absent. *)
Fixpoint held (k : string) (t : list (string * nat)) : nat :=
  match t with
  | [] => 0%nat
  | (k', c) :: t' => if String.eqb k k' then c else held k t'
  end.

(** The sum of the counts. *)
Definition total (t : list (string * nat)) : nat :=
  fold_right Nat.add 0%nat (map snd t).

(** Entries are entered with count one and only ever raised. *)
Definition positive (t : list (string * nat)) : Prop :=
  Forall (fun e => (0 < snd e)%nat) t.

(** The order [sort_desc] sorts by: the later entry has no larger count. *)
Definition desc (a b : string * nat) : Prop := (snd b <= snd a)%nat.

(* ===================================================================== *)
(** * Charts and page elements *)
(* ===================================================================== *)

Module Plotly.

(** A figure as the script describes it to the charting library: its kind,
    its title and the columns bound to its axes.  The box plot's quartiles
    and whiskers are drawn from the [y] column by the library. *)
Inductive Figure : Type :=
| Bar (title : string) (x : list string) (y : list nat) (color : list string)
| Scatter (title : string) (x : list Timestamp) (y color hover : list string)
| Box (title : string) (x : list string) (y : list Z) (color : list string).

(** [px.bar(t, x=, y=, color=, title=)] over a table of counts, for the call
    the script makes: [x] and [color] name the string column, [y] the count
    column.  A name that is not a column of [t] is refused. *)
Definition bar (t : CountsFrame) (x y color title : string) : result Figure :=
  match columns t with
  | [n1; n2] =>
      if String.eqb x n1 && String.eqb y n2 && String.eqb color n1
      then inr (Bar title (labels t) (counts t) (labels t))
      else inl (ValueError "Value is not the name of a column in 'data_frame'")
  | _ => inl (ValueError "Value is not the name of a column in 'data_frame'")
  end.

(** [px.scatter(d, x='Date', y='Variant', color='Region',
    hover_data=['Sample_ID'], title=)]. *)
Definition scatter (d : Frame) (title : string) : Figure :=
  Scatter title (Date d) (Variant d) (Region d) (Sample_ID d).

(** [px.box(d, x='Variant', y='Genome_Length', color='Variant', title=)]. *)
Definition box (d : Frame) (title : string) : Figure :=
  Box title (Variant d) (Genome_Length d) (Variant d).

End Plotly.

(** What the script puts on the page, in order. *)
Inductive Element : Type :=
| Markdown (body : string)
| ExpanderDataframe (label : string) (d : Frame)
| Subheader (body : string)
| Warning (body : string)
| PlotlyChart (fig : Plotly.Figure).

(** The objects the script's names refer to. *)
Inductive PyObj : Type :=
| FrameObj (d : Frame)
| CountsObj (c : CountsFrame).

(** One run of the script: the store of objects, addressed by position, and
    the page written so far. *)
Record Session : Type := mkSession {
  heap : list PyObj;
  page : list Element
}.

Definition init : Session := mkSession [] [].

(** A step of the script: it returns or raises, and leaves a session behind
    either way. *)
Definition App (A : Type) : Type := Session -> result A * Session.

#[local] Instance Monad_App : Monad App := {
  ret := fun _ a s => (inr a, s);
  bind := fun _ _ c f s =>
    match c s with
    | (inr a, s') => f a s'
    | (inl e, s') => (inl e, s')
    end
}.

Definition lift {A} (r : result A) : App A := fun s => (r, s).

(** A new object, at the next free address. *)
Definition new (o : PyObj) : App nat :=
  fun s => (inr (length (heap s)), mkSession (heap s ++ [o]) (page s)).

Fixpoint update {A} (l : list A) (i : nat) (x : A) : list A :=
  match l, i with
  | [], _ => []
  | _ :: l', O => x :: l'
  | y :: l', S i' => y :: update l' i' x
  end.

(** The object at an address is replaced: an assignment to one of its
    attributes or columns. *)
Definition store (r : nat) (o : PyObj) : App unit :=
  fun s => (inr tt, mkSession (update (heap s) r o) (page s)).

Definition frame_at (r : nat) : App Frame :=
  fun s =>
    match nth_error (heap s) r with
    | Some (FrameObj d) => (inr d, s)
    | _ => (inl (NameError "no samples table at this name"), s)
    end.

Definition counts_at (r : nat) : App CountsFrame :=
  fun s =>
    match nth_error (heap s) r with
    | Some (CountsObj c) => (inr c, s)
    | _ => (inl (NameError "no table of counts at this name"), s)
    end.

Definition emit (e : Element) : App unit :=
  fun s => (inr tt, mkSession (heap s) (page s ++ [e])).

(** The values the three sidebar widgets return on this run (lines 58-79). *)
Record Widgets : Type := mkWidgets {
  date_range : list date;
  selected_regions : list string;
  selected_variants : list string
}.

(** Lines 82-88, on the store: the table named [df] is read and the selection
    is bound to a new name. *)
Definition apply_filters (df : nat) (w : Widgets) : App nat :=
  d <- frame_at df ;;
  d' <- lift (df_filtered d (date_range w) (selected_regions w)
               (selected_variants w)) ;;
  new (FrameObj d').

(** Decimal digits of a number, as an f-string prints it. *)
Definition str (n : nat) : string := NilEmpty.string_of_uint (Nat.to_uint n).

(** Line 90. *)
Definition count_line (df_filtered : nat) : App unit :=
  d <- frame_at df_filtered ;;
  emit (Markdown ("**Current number of filtered samples**: " ++ str (len d))).

(** Lines 95-96. *)
Definition data_table (df_filtered : nat) : App unit :=
  d <- frame_at df_filtered ;;
  emit (ExpanderDataframe "Show filtered data table" d).

(** Lines 104-105 as one value: the counts of the [Variant] column, as a
    table whose columns are named [Variant] and [Count]. *)
Definition variant_counts (d : Frame) : result CountsFrame :=
  set_columns (reset_index "Variant" (value_counts (Variant d)))
    ["Variant"; "Count"].

(** Lines 103-117.  The table of counts is a new object; line 105 renames
    its columns in place. *)
Definition bar_chart (df_filtered : nat) : App unit :=
  emit (Subheader "Frequency of Variants (Filtered)") ;;
  d <- frame_at df_filtered ;;
  variant_counts <- new (CountsObj (reset_index "Variant" (value_counts (Variant d)))) ;;
  c <- counts_at variant_counts ;;
  c' <- lift (set_columns c ["Variant"; "Count"]) ;;
  store variant_counts (CountsObj c') ;;
  t <- counts_at variant_counts ;;
  if (length (cindex t) =? 0)%nat
  then emit (Warning "No data available for the selected filters.")
  else
    fig_bar <- lift (Plotly.bar t "Variant" "Count" "Variant"
                       "Number of Samples per Variant (Filtered)") ;;
    emit (PlotlyChart fig_bar).

(** Lines 120-132. *)
Definition timeline_scatter (df_filtered : nat) : App unit :=
  emit (Subheader "Timeline of Sample Collection (Filtered)") ;;
  d <- frame_at df_filtered ;;
  if (0 <? len d)%nat
  then emit (PlotlyChart (Plotly.scatter d "Collection Dates by Variant and Region"))
  else emit (Warning "No data to display in timeline.").

(** Lines 135-146. *)
Definition box_plot (df_filtered : nat) : App unit :=
  emit (Subheader "Genome Length Distribution (Filtered)") ;;
  d <- frame_at df_filtered ;;
  if (0 <? len d)%nat
  then emit (PlotlyChart (Plotly.box d "Genome Length per Variant"))
  else emit (Warning "No data to display in box plot.").

(** Lines 102-146: the three charts. *)
Definition charts (df_filtered : nat) : App unit :=
  bar_chart df_filtered ;;
  timeline_scatter df_filtered ;;
  box_plot df_filtered.

(** The script from the loading of the table to the last chart.  The title,
    the two fixed texts and the configuration of the widgets do not depend
    on the filters and are left out. *)
Definition dashboard (w : Widgets) : App unit :=
  d <- lift load_data ;;
  df <- new (FrameObj d) ;;
  df_filtered <- apply_filters df w ;;
  count_line df_filtered ;;
  data_table df_filtered ;;
  charts df_filtered.

(* ===================================================================== *)
(** * Facts about columns and rows *)
(* ===================================================================== *)

Lemma load_data_df : load_data = inr df.
Proof. reflexivity. Qed.

Lemma rows_of_rows (l : list Sample) : rows (of_rows l) = l.
Proof.
  unfold rows, of_rows; simpl.
  induction l as [|[i a d r v g] l IH]; simpl; [reflexivity|].
  now rewrite IH.
Qed.

(** The loaded table is the table of its rows. *)
Lemma df_of_rows : df = of_rows (rows df).
Proof. reflexivity. Qed.

Lemma and_map {A} (f g : A -> bool) (l : list A) :
  and_ (map f l) (map g l) = map (fun x => f x && g x) l.
Proof. induction l; simpl; [reflexivity | now rewrite IHl]. Qed.

Lemma take_map {A B} (p : A -> bool) (f : A -> B) (l : list A) :
  take (map p l) (map f l) = map f (filter p l).
Proof.
  induction l as [|x l IH]; simpl; [reflexivity|].
  destruct (p x); simpl; now rewrite IH.
Qed.

Lemma mask_of_rows (l : list Sample) start_date end_date regions variants :
  and_ (and_ (and_ (ge (Date (of_rows l)) (to_datetime start_date))
                   (le (Date (of_rows l)) (to_datetime end_date)))
             (isin (Region (of_rows l)) regions))
       (isin (Variant (of_rows l)) variants)
  = map (keeps start_date end_date regions variants) l.
Proof.
  unfold ge, le, isin, of_rows; simpl.
  rewrite !map_map, !and_map.
  apply map_ext; intros r; reflexivity.
Qed.

Lemma getitem_mask_of_rows (l : list Sample) (p : Sample -> bool) :
  getitem_mask (of_rows l) (map p l) = inr (of_rows (filter p l)).
Proof.
  unfold getitem_mask, len, of_rows; simpl.
  rewrite !length_map, Nat.eqb_refl.
  now rewrite !take_map.
Qed.

(** The filter on a table of rows keeps the rows that pass [keeps]. *)
Lemma df_filtered_of_rows (l : list Sample) start_date end_date regions variants :
  df_filtered (of_rows l) [start_date; end_date] regions variants
  = inr (of_rows (filter (keeps start_date end_date regions variants) l)).
Proof.
  unfold df_filtered, unpack2. cbn [bind Monad_either].
  rewrite mask_of_rows. apply getitem_mask_of_rows.
Qed.

Lemma existsb_eqb_In (x : string) (l : list string) :
  existsb (String.eqb x) l = true <-> In x l.
Proof.
  rewrite existsb_exists; split.
  - intros [y [Hy He]]. apply String.eqb_eq in He. now subst.
  - intros H. exists x. split; [assumption | apply String.eqb_refl].
Qed.

Lemma keeps_spec start_date end_date regions variants (r : Sample) :
  keeps start_date end_date regions variants r = true <->
  (to_datetime start_date <= collection_date r <= to_datetime end_date) /\
  In (region r) regions /\ In (variant r) variants.
Proof.
  unfold keeps, date_ok, region_ok, variant_ok.
  rewrite !andb_true_iff, !Z.leb_le, !existsb_eqb_In. tauto.
Qed.

(* ===================================================================== *)
(** * The order of dates and the order of timestamps *)
(* ===================================================================== *)

Section DateOrder.

Lemma days_before_year_succ (y : Z) :
  days_before_year (y + 1) = days_before_year y + (if is_leap y then 366 else 365).
Proof.
  unfold days_before_year, is_leap.
  replace (y + 1 - 1) with y by lia.
  destruct (Z.eqb_spec (y mod 4) 0), (Z.eqb_spec (y mod 100) 0),
    (Z.eqb_spec (y mod 400) 0); cbn [andb orb negb];
    Z.div_mod_to_equations; lia.
Qed.

Lemma days_before_year_mono (a b : Z) :
  a <= b -> days_before_year a <= days_before_year b.
Proof.
  intros H. pattern b. apply Zlt_lower_bound_ind with (z := a); [|assumption].
  intros x IH Hx.
  destruct (Z.eq_dec x a) as [->|Hne]; [lia|].
  specialize (IH (x - 1) ltac:(lia)).
  replace x with (x - 1 + 1) by lia.
  rewrite days_before_year_succ.
  destruct (is_leap (x - 1)); lia.
Qed.

Lemma month_range (m : Z) :
  1 <= m <= 12 ->
  m = 1 \/ m = 2 \/ m = 3 \/ m = 4 \/ m = 5 \/ m = 6 \/
  m = 7 \/ m = 8 \/ m = 9 \/ m = 10 \/ m = 11 \/ m = 12.
Proof. lia. Qed.

Ltac each_month H :=
  apply month_range in H; repeat (destruct H as [H|H]); subst.

(** The days before a month and the days of that month make the days before
    the next, or fill the year after December. *)
Lemma days_before_month_next (y m : Z) :
  1 <= m <= 12 ->
  days_before_month y m + days_in_month y m
  = if m =? 12 then (if is_leap y then 366 else 365)
    else days_before_month y (m + 1).
Proof.
  intros H. each_month H; unfold days_before_month, days_in_month;
    destruct (is_leap y); reflexivity.
Qed.

Lemma days_before_month_mono (y m n : Z) :
  1 <= m <= 12 -> 1 <= n <= 12 -> m <= n ->
  days_before_month y m <= days_before_month y n.
Proof.
  intros Hm Hn Hle. each_month Hm; each_month Hn;
    try lia; unfold days_before_month; destruct (is_leap y); cbn; lia.
Qed.

Lemma days_before_month_bounds (y m : Z) :
  1 <= m <= 12 ->
  0 <= days_before_month y m /\
  days_before_month y m + days_in_month y m <= (if is_leap y then 366 else 365).
Proof.
  intros H. each_month H; unfold days_before_month, days_in_month;
    destruct (is_leap y); cbn; lia.
Qed.

Lemma valid_spec (d : date) :
  valid d = true <->
  1 <= year d <= 9999 /\ 1 <= month d <= 12 /\
  1 <= day d <= days_in_month (year d) (month d).
Proof. unfold valid. rewrite !andb_true_iff, !Z.leb_le. tauto. Qed.

Lemma date_ltb_spec (a b : date) :
  date_ltb a b = true <->
  year a < year b \/
  (year a = year b /\
   (month a < month b \/ (month a = month b /\ day a < day b))).
Proof.
  unfold date_ltb.
  rewrite !orb_true_iff, !andb_true_iff, !orb_true_iff, !andb_true_iff,
    !Z.ltb_lt, !Z.eqb_eq.
  tauto.
Qed.

(** An earlier date has a smaller ordinal. *)
Lemma toordinal_lt (a b : date) :
  valid a = true -> valid b = true -> date_ltb a b = true ->
  toordinal a < toordinal b.
Proof.
  intros Va Vb L.
  apply valid_spec in Va; destruct Va as (_ & Ma & Da).
  apply valid_spec in Vb; destruct Vb as (_ & Mb & Db).
  apply date_ltb_spec in L. unfold toordinal.
  destruct (days_before_month_bounds (year a) (month a) Ma) as [_ Ua].
  destruct (days_before_month_bounds (year b) (month b) Mb) as [Lb _].
  destruct L as [Hy | (Hy & [Hm | (Hm & Hd)])].
  - pose proof (days_before_year_mono (year a + 1) (year b) ltac:(lia)) as Hmono.
    rewrite days_before_year_succ in Hmono.
    destruct (is_leap (year a)); lia.
  - rewrite <- Hy in *.
    pose proof (days_before_month_next (year a) (month a) Ma) as Hn.
    destruct (Z.eqb_spec (month a) 12) as [E|E]; [lia|].
    pose proof (days_before_month_mono (year a) (month a + 1) (month b)
                  ltac:(lia) Mb ltac:(lia)).
    lia.
  - rewrite Hy, Hm. lia.
Qed.

Lemma to_datetime_lt (a b : date) :
  valid a = true -> valid b = true -> date_ltb a b = true ->
  to_datetime a < to_datetime b.
Proof.
  intros Va Vb L. pose proof (toordinal_lt a b Va Vb L).
  unfold to_datetime, ns_per_day. lia.
Qed.

(** When the second date is not earlier than the first, neither is its
    timestamp. *)
Lemma to_datetime_le (a b : date) :
  valid a = true -> valid b = true -> date_ltb b a = false ->
  to_datetime a <= to_datetime b.
Proof.
  intros Va Vb L.
  destruct (date_ltb a b) eqn:Lab.
  - pose proof (to_datetime_lt a b Va Vb Lab). lia.
  - assert (E : year a = year b /\ month a = month b /\ day a = day b).
    { assert (Hab : ~ date_ltb a b = true) by congruence.
      assert (Hba : ~ date_ltb b a = true) by congruence.
      rewrite date_ltb_spec in Hab, Hba. lia. }
    destruct E as (Ey & Em & Ed).
    unfold to_datetime, toordinal. rewrite Ey, Em, Ed. lia.
Qed.

End DateOrder.

(* ===================================================================== *)
(** * The filter *)
(* ===================================================================== *)

Section Filter.

Variables start_date end_date : date.
Variables regions variants : list string.

Lemma filter_none {A} (p : A -> bool) (l : list A) :
  (forall x, In x l -> p x = false) -> filter p l = [].
Proof.
  induction l as [|x l IH]; simpl; intros H; [reflexivity|].
  rewrite (H x (or_introl eq_refl)). apply IH. intros y Hy. apply H. now right.
Qed.

Lemma filter_twice {A} (p : A -> bool) (l : list A) :
  filter p (filter p l) = filter p l.
Proof.
  induction l as [|x l IH]; simpl; [reflexivity|].
  destruct (p x) eqn:E; simpl; [rewrite E, IH|]; auto.
Qed.

Lemma count_occ_filter_le (p : Sample -> bool) (l : list Sample) (r : Sample) :
  (count_occ Sample_eq_dec (filter p l) r <= count_occ Sample_eq_dec l r)%nat.
Proof.
  induction l as [|x l IH]; simpl; [lia|].
  destruct (p x); simpl; destruct (Sample_eq_dec x r); lia.
Qed.

(** The filter applied to the loaded table. *)
Lemma df_filtered_df :
  df_filtered df [start_date; end_date] regions variants
  = inr (of_rows (filter (keeps start_date end_date regions variants) (rows df))).
Proof. rewrite df_of_rows at 1. apply df_filtered_of_rows. Qed.

(** C1.  For every date interval, every selection of regions and every
    selection of variants, the filter returns a table whose rows are exactly
    the rows of the eight-row table that pass the three tests together: the
    date lies in the interval, the region is one of the selected regions and
    the variant is one of the selected variants.  The rows come in the order
    of the table. *)
Theorem filtered_view_is_conjunction :
  exists d : Frame,
    df_filtered df [start_date; end_date] regions variants = inr d /\
    d = of_rows (rows d) /\
    rows d = filter (keeps start_date end_date regions variants) (rows df) /\
    forall r : Sample,
      In r (rows d) <->
      In r (rows df) /\
      to_datetime start_date <= collection_date r <= to_datetime end_date /\
      In (region r) regions /\
      In (variant r) variants.
Proof.
  eexists. split; [apply df_filtered_df|].
  rewrite rows_of_rows. split; [reflexivity|]. split; [reflexivity|].
  intros r. rewrite filter_In, keeps_spec. tauto.
Qed.

(** With everything selected, as the widgets are when the page is first
    shown, the filter keeps the whole table. *)
Example default_widgets_keep_every_row :
  all_regions = ["Brazil"; "Mexico"; "USA"] /\
  all_variants = ["Delta"; "Gamma"; "Omicron"] /\
  df_filtered df [mkdate 2021 1 15; mkdate 2021 3 12] all_regions all_variants
  = inr df.
Proof. repeat split. Qed.

(** C3.  When no region is selected, or no variant is selected, the filter
    returns the empty table, whatever the date interval. *)
Theorem empty_selection_gives_empty_view :
  regions = [] \/ variants = [] ->
  df_filtered df [start_date; end_date] regions variants = inr (of_rows []).
Proof.
  intros H. rewrite df_filtered_df. f_equal. f_equal.
  apply filter_none. intros r _. unfold keeps, region_ok, variant_ok.
  destruct H as [-> | ->]; simpl.
  - now rewrite andb_false_r.
  - now rewrite andb_false_r.
Qed.

(** C5.  The filtered table is part of the loaded table: each of its rows is
    a row of the loaded table, and no row occurs in it more often than in
    the loaded table. *)
Theorem filtered_view_is_subset :
  exists d : Frame,
    df_filtered df [start_date; end_date] regions variants = inr d /\
    d = of_rows (rows d) /\
    (forall r : Sample, In r (rows d) -> In r (rows df)) /\
    (forall r : Sample,
        (count_occ Sample_eq_dec (rows d) r
         <= count_occ Sample_eq_dec (rows df) r)%nat) /\
    NoDup (rows d).
Proof.
  eexists. split; [apply df_filtered_df|].
  rewrite rows_of_rows. repeat split.
  - intros r H. apply filter_In in H. tauto.
  - intros r. apply count_occ_filter_le.
  - apply NoDup_filter.
    apply (NoDup_count_occ' Sample_eq_dec). intros r Hr.
    repeat (destruct Hr as [<- | Hr]; [reflexivity|]). destruct Hr.
Qed.

End Filter.

(** C6.  Filtering is idempotent: the filter applied to its own result, with
    the same widget values, gives that result again; and when the date tuple
    cannot be unpacked both raise the same exception. *)
Theorem filtering_is_idempotent (date_range : list date)
    (regions variants : list string) :
  (d <- df_filtered df date_range regions variants ;;
   df_filtered d date_range regions variants)
  = df_filtered df date_range regions variants.
Proof.
  destruct date_range as [|s [|e [|x t]]]; try reflexivity.
  rewrite df_filtered_df. cbn [bind Monad_either].
  rewrite df_filtered_of_rows. now rewrite filter_twice.
Qed.

(** C8.  With the region Brazil, the variants Gamma and Delta and the whole
    range of dates of the table (15 January to 12 March 2021), the filter
    returns the three rows BR001, BR002 and BR003. *)
Theorem brazil_gamma_delta_scenario :
  min_date = Some (to_datetime (mkdate 2021 1 15)) /\
  max_date = Some (to_datetime (mkdate 2021 3 12)) /\
  exists d : Frame,
    df_filtered df [mkdate 2021 1 15; mkdate 2021 3 12]
      ["Brazil"] ["Gamma"; "Delta"] = inr d /\
    d = of_rows (rows d) /\
    Sample_ID d = ["BR001"; "BR002"; "BR003"] /\
    len d = 3%nat.
Proof.
  split; [reflexivity|]. split; [reflexivity|].
  eexists. split; [vm_compute; reflexivity|].
  repeat split.
Qed.

(* ===================================================================== *)
(** * Counting the variants *)
(* ===================================================================== *)

Section ValueCounts.

Lemma held_bump (v k : string) (t : list (string * nat)) :
  held v (bump k t) = (held v t + (if String.eqb v k then 1 else 0))%nat.
Proof.
  induction t as [|[k' c] t IH]; simpl.
  - destruct (String.eqb v k); reflexivity.
  - destruct (String.eqb_spec k k') as [->|Hk]; simpl.
    + destruct (String.eqb v k'); lia.
    + destruct (String.eqb_spec v k') as [->|Hv].
      * destruct (String.eqb_spec k' k); [congruence | lia].
      * apply IH.
Qed.

Lemma keys_bump (v k : string) (t : list (string * nat)) :
  In v (map fst (bump k t)) <-> v = k \/ In v (map fst t).
Proof.
  induction t as [|[k' c] t IH]; simpl.
  - intuition.
  - destruct (String.eqb_spec k k') as [->|Hk]; simpl; intuition.
Qed.

Lemma NoDup_bump (k : string) (t : list (string * nat)) :
  NoDup (map fst t) -> NoDup (map fst (bump k t)).
Proof.
  induction t as [|[k' c] t IH]; simpl; intros H.
  - constructor; [intros [] | constructor].
  - destruct (String.eqb_spec k k') as [->|Hk]; simpl; [assumption|].
    inversion H as [|? ? Hn Hd]; subst. constructor; [|now apply IH].
    rewrite keys_bump. intros [E | E]; [congruence | contradiction].
Qed.

Lemma positive_bump (k : string) (t : list (string * nat)) :
  positive t -> positive (bump k t).
Proof.
  unfold positive. induction t as [|[k' c] t IH]; simpl; intros H.
  - constructor; [simpl; lia | constructor].
  - inversion H; subst. destruct (String.eqb k k'); constructor; simpl in *;
      auto; lia.
Qed.

Lemma total_bump (k : string) (t : list (string * nat)) :
  total (bump k t) = S (total t).
Proof.
  unfold total. induction t as [|[k' c] t IH]; simpl; [reflexivity|].
  destruct (String.eqb k k'); simpl; [reflexivity | rewrite IH; lia].
Qed.

(** In a table without repeated keys, an entry is a key with the count held
    for it. *)
Lemma In_held (v : string) (c : nat) (t : list (string * nat)) :
  NoDup (map fst t) ->
  (In (v, c) t <-> In v (map fst t) /\ held v t = c).
Proof.
  induction t as [|[k' c'] t IH]; simpl; intros H; [tauto|].
  inversion H as [|? ? Hn Hd]; subst. specialize (IH Hd).
  destruct (String.eqb_spec v k') as [->|Hv].
  - split.
    + intros [E | E]; [inversion E; auto|].
      exfalso. apply Hn. apply IH in E. tauto.
    + intros [_ ->]. now left.
  - split.
    + intros [E | E]; [inversion E; congruence|]. apply IH in E. tauto.
    + intros [[E | E] Hc]; [congruence|]. right. apply IH. tauto.
Qed.

(** What the walk over the column leaves in the table. *)
Lemma fold_bump (s : list string) (t : list (string * nat)) :
  let t' := fold_left (fun t k => bump k t) s t in
  (forall v, held v t' = (held v t + count_occ string_dec s v)%nat) /\
  (forall v, In v (map fst t') <-> In v s \/ In v (map fst t)) /\
  (NoDup (map fst t) -> NoDup (map fst t')) /\
  (positive t -> positive t') /\
  total t' = (total t + length s)%nat.
Proof.
  revert t. induction s as [|k s IH]; intros t; simpl.
  - repeat split; auto; tauto.
  - destruct (IH (bump k t)) as (Hh & Hk & Hn & Hp & Ht).
    repeat split.
    + intros v. rewrite Hh, held_bump.
      destruct (string_dec k v) as [->|Hv].
      * rewrite String.eqb_refl. lia.
      * destruct (String.eqb_spec v k); [congruence | lia].
    + intros H. apply Hk in H. rewrite keys_bump in H. intuition.
    + intros H. apply Hk. rewrite keys_bump. intuition.
    + intros H. apply Hn. now apply NoDup_bump.
    + intros H. apply Hp. now apply positive_bump.
    + rewrite Ht, total_bump. lia.
Qed.

Lemma count_table_spec (s : list string) :
  NoDup (map fst (count_table s)) /\
  (forall v c, In (v, c) (count_table s) <->
               In v s /\ c = count_occ string_dec s v) /\
  total (count_table s) = length s.
Proof.
  unfold count_table.
  destruct (fold_bump s []) as (Hh & Hk & Hn & _ & Ht).
  assert (N : NoDup (map fst (fold_left (fun t k => bump k t) s []))).
  { apply Hn. constructor. }
  split; [exact N|]. split; [|exact Ht].
  intros v c. rewrite (In_held v c _ N), Hk, Hh. simpl.
  intuition.
Qed.

Lemma insert_desc_perm (e : string * nat) (t : list (string * nat)) :
  Permutation (insert_desc e t) (e :: t).
Proof.
  induction t as [|x t IH]; simpl; [constructor; constructor|].
  destruct (snd x <=? snd e)%nat; [apply Permutation_refl|].
  eapply perm_trans; [apply perm_skip, IH | apply perm_swap].
Qed.

Lemma sort_desc_perm (t : list (string * nat)) : Permutation (sort_desc t) t.
Proof.
  induction t as [|x t IH]; simpl; [constructor|].
  eapply perm_trans; [apply insert_desc_perm | now apply perm_skip].
Qed.

Lemma insert_desc_sorted (e : string * nat) (t : list (string * nat)) :
  Sorted desc t -> Sorted desc (insert_desc e t).
Proof.
  induction t as [|x t IH]; simpl; intros H.
  - repeat constructor.
  - destruct (Nat.leb_spec (snd x) (snd e)) as [L|L].
    + constructor; [assumption | constructor; exact L].
    + apply Sorted_inv in H. destruct H as [Hs Hh].
      constructor; [now apply IH|].
      destruct t as [|y t]; simpl.
      * constructor. unfold desc. lia.
      * destruct (snd y <=? snd e)%nat; constructor.
        -- unfold desc. lia.
        -- now apply HdRel_inv in Hh.
Qed.

Lemma sort_desc_sorted (t : list (string * nat)) : Sorted desc (sort_desc t).
Proof.
  induction t as [|x t IH]; simpl; [constructor | now apply insert_desc_sorted].
Qed.

Lemma total_perm (t u : list (string * nat)) :
  Permutation t u -> total t = total u.
Proof.
  unfold total. induction 1; simpl; lia.
Qed.

Lemma StronglySorted_map_snd (t : list (string * nat)) :
  StronglySorted desc t ->
  StronglySorted (fun a b : nat => (b <= a)%nat) (map snd t).
Proof.
  induction 1 as [|x t Hs IH Hf]; simpl; constructor; [assumption|].
  rewrite Forall_map. exact Hf.
Qed.

(** What [value_counts] returns for a column [s]. *)
Lemma value_counts_spec (s : list string) :
  NoDup (map fst (value_counts s)) /\
  (forall v c, In (v, c) (value_counts s) <->
               In v s /\ c = count_occ string_dec s v) /\
  StronglySorted (fun a b : nat => (b <= a)%nat) (map snd (value_counts s)) /\
  total (value_counts s) = length s.
Proof.
  unfold value_counts.
  destruct (count_table_spec s) as (Hn & Hi & Ht).
  pose proof (sort_desc_perm (count_table s)) as P.
  split; [|split; [|split]].
  - eapply Permutation_NoDup; [|exact Hn].
    apply Permutation_map, Permutation_sym, P.
  - intros v c. rewrite <- Hi. split; apply Permutation_in.
    + exact P.
    + apply Permutation_sym, P.
  - apply StronglySorted_map_snd, Sorted_StronglySorted.
    + intros a b c Hab Hbc. unfold desc in *. lia.
    + apply sort_desc_sorted.
  - rewrite (total_perm _ _ P). exact Ht.
Qed.

(** The counted column is empty exactly when the table of counts is. *)
Lemma value_counts_length (s : list string) :
  length (value_counts s) = 0%nat <-> s = [].
Proof.
  destruct (value_counts_spec s) as (_ & Hi & _ & Ht).
  split.
  - intros H. destruct (value_counts s); [|discriminate].
    unfold total in Ht; simpl in Ht. destruct s; [reflexivity | discriminate].
  - intros ->. reflexivity.
Qed.

End ValueCounts.

(* ===================================================================== *)
(** * Running the script *)
(* ===================================================================== *)

Section Run.

Lemma nth_error_snoc {A} (h : list A) (o : A) :
  nth_error (h ++ [o]) (length h) = Some o.
Proof. rewrite nth_error_app2, Nat.sub_diag by lia. reflexivity. Qed.

Lemma nth_error_grow {A} (h : list A) (o x : A) (a : nat) :
  nth_error h a = Some x -> nth_error (h ++ [o]) a = Some x.
Proof.
  intros H. rewrite nth_error_app1; [assumption|].
  apply nth_error_Some. congruence.
Qed.

Lemma update_snoc {A} (h : list A) (o o' : A) :
  update (h ++ [o]) (length h) o' = (h ++ [o'])%list.
Proof. induction h as [|x h IH]; simpl; [reflexivity | now rewrite IH]. Qed.

Variable s : Session.
Variable r : nat.
Variable d : Frame.
Hypothesis Hr : nth_error (heap s) r = Some (FrameObj d).

Lemma apply_filters_run (w : Widgets) :
  apply_filters r w s =
  match df_filtered d (date_range w) (selected_regions w) (selected_variants w) with
  | inr d' => (inr (length (heap s)), mkSession (heap s ++ [FrameObj d']) (page s))
  | inl e => (inl e, s)
  end.
Proof.
  unfold apply_filters, frame_at, lift, new. cbn [bind Monad_App].
  rewrite Hr.
  destruct (df_filtered d _ _ _); reflexivity.
Qed.

Lemma bar_chart_run :
  bar_chart r s =
  (inr tt,
   mkSession
     (heap s ++ [CountsObj (mkCountsFrame
                              (seq 0 (length (value_counts (Variant d))))
                              ["Variant"; "Count"]
                              (map fst (value_counts (Variant d)))
                              (map snd (value_counts (Variant d))))])
     (page s ++
      [Subheader "Frequency of Variants (Filtered)";
       if (length (value_counts (Variant d)) =? 0)%nat
       then Warning "No data available for the selected filters."
       else PlotlyChart
              (Plotly.Bar "Number of Samples per Variant (Filtered)"
                 (map fst (value_counts (Variant d)))
                 (map snd (value_counts (Variant d)))
                 (map fst (value_counts (Variant d))))])).
Proof.
  unfold bar_chart, frame_at, emit, lift, new, counts_at, store.
  cbn [bind Monad_App heap page]. rewrite Hr.
  cbn [heap page]. rewrite nth_error_snoc.
  unfold set_columns, reset_index. cbn [columns length Nat.eqb cindex labels counts].
  cbn [heap page]. rewrite update_snoc, nth_error_snoc.
  cbn [cindex]. rewrite length_seq.
  destruct (length (value_counts (Variant d)) =? 0)%nat.
  - cbn [heap page]. rewrite <- app_assoc. reflexivity.
  - cbn. rewrite <- app_assoc. reflexivity.
Qed.

Lemma count_line_run :
  count_line r s =
  (inr tt,
   mkSession (heap s)
     (page s ++
      [Markdown ("**Current number of filtered samples**: " ++ str (len d))])).
Proof.
  unfold count_line, frame_at, emit. cbn [bind Monad_App]. now rewrite Hr.
Qed.

Lemma data_table_run :
  data_table r s =
  (inr tt,
   mkSession (heap s)
     (page s ++ [ExpanderDataframe "Show filtered data table" d])).
Proof.
  unfold data_table, frame_at, emit. cbn [bind Monad_App]. now rewrite Hr.
Qed.

Lemma timeline_scatter_run :
  timeline_scatter r s =
  (inr tt,
   mkSession (heap s)
     (page s ++
      [Subheader "Timeline of Sample Collection (Filtered)";
       if (0 <? len d)%nat
       then PlotlyChart
              (Plotly.scatter d "Collection Dates by Variant and Region")
       else Warning "No data to display in timeline."])).
Proof.
  unfold timeline_scatter, frame_at, emit. cbn [bind Monad_App heap page].
  rewrite Hr. destruct (0 <? len d)%nat; cbn [heap page];
    now rewrite <- app_assoc.
Qed.

Lemma box_plot_run :
  box_plot r s =
  (inr tt,
   mkSession (heap s)
     (page s ++
      [Subheader "Genome Length Distribution (Filtered)";
       if (0 <? len d)%nat
       then PlotlyChart (Plotly.box d "Genome Length per Variant")
       else Warning "No data to display in box plot."])).
Proof.
  unfold box_plot, frame_at, emit. cbn [bind Monad_App heap page].
  rewrite Hr. destruct (0 <? len d)%nat; cbn [heap page];
    now rewrite <- app_assoc.
Qed.

End Run.

(** The three chart blocks in a row: one new object, six new elements. *)
Lemma charts_run (s : Session) (r : nat) (d : Frame) :
  nth_error (heap s) r = Some (FrameObj d) ->
  charts r s =
  (inr tt,
   mkSession
     (heap s ++ [CountsObj (mkCountsFrame
                              (seq 0 (length (value_counts (Variant d))))
                              ["Variant"; "Count"]
                              (map fst (value_counts (Variant d)))
                              (map snd (value_counts (Variant d))))])
     (page s ++
      [Subheader "Frequency of Variants (Filtered)";
       if (length (value_counts (Variant d)) =? 0)%nat
       then Warning "No data available for the selected filters."
       else PlotlyChart
              (Plotly.Bar "Number of Samples per Variant (Filtered)"
                 (map fst (value_counts (Variant d)))
                 (map snd (value_counts (Variant d)))
                 (map fst (value_counts (Variant d))));
       Subheader "Timeline of Sample Collection (Filtered)";
       if (0 <? len d)%nat
       then PlotlyChart
              (Plotly.scatter d "Collection Dates by Variant and Region")
       else Warning "No data to display in timeline.";
       Subheader "Genome Length Distribution (Filtered)";
       if (0 <? len d)%nat
       then PlotlyChart (Plotly.box d "Genome Length per Variant")
       else Warning "No data to display in box plot."])).
Proof.
  intros Hr. unfold charts. cbn [bind Monad_App].
  rewrite (bar_chart_run s r d Hr).
  erewrite timeline_scatter_run
    by (cbn [heap]; apply nth_error_grow; exact Hr).
  erewrite box_plot_run
    by (cbn [heap]; apply nth_error_grow; exact Hr).
  cbn [heap page]. rewrite <- !app_assoc. reflexivity.
Qed.

(** One whole run, for a date tuple of two dates. *)
Lemma dashboard_run (start_date end_date : date) (regions variants : list string) :
  let d := of_rows (filter (keeps start_date end_date regions variants) (rows df)) in
  dashboard (mkWidgets [start_date; end_date] regions variants) init =
  (inr tt,
   mkSession
     [FrameObj df; FrameObj d;
      CountsObj (mkCountsFrame
                   (seq 0 (length (value_counts (Variant d))))
                   ["Variant"; "Count"]
                   (map fst (value_counts (Variant d)))
                   (map snd (value_counts (Variant d))))]
     [Markdown ("**Current number of filtered samples**: " ++ str (len d));
      ExpanderDataframe "Show filtered data table" d;
      Subheader "Frequency of Variants (Filtered)";
      if (length (value_counts (Variant d)) =? 0)%nat
      then Warning "No data available for the selected filters."
      else PlotlyChart
             (Plotly.Bar "Number of Samples per Variant (Filtered)"
                (map fst (value_counts (Variant d)))
                (map snd (value_counts (Variant d)))
                (map fst (value_counts (Variant d))));
      Subheader "Timeline of Sample Collection (Filtered)";
      if (0 <? len d)%nat
      then PlotlyChart
             (Plotly.scatter d "Collection Dates by Variant and Region")
      else Warning "No data to display in timeline.";
      Subheader "Genome Length Distribution (Filtered)";
      if (0 <? len d)%nat
      then PlotlyChart (Plotly.box d "Genome Length per Variant")
      else Warning "No data to display in box plot."]).
Proof.
  intros d. unfold dashboard. cbn [bind Monad_App].
  rewrite load_data_df. unfold lift at 1, new at 1. cbn [init heap page length].
  erewrite apply_filters_run by reflexivity.
  cbn [date_range selected_regions selected_variants].
  rewrite df_filtered_df. fold d. cbn [heap page length app].
  erewrite count_line_run by reflexivity.
  erewrite data_table_run by reflexivity.
  cbn [heap page app].
  erewrite charts_run by reflexivity.
  reflexivity.
Qed.

(* ===================================================================== *)
(** * Date bounds *)
(* ===================================================================== *)

(** C2, as stated, fails when the interval is reversed.  With the start on
    5 March 2021 and the end on 15 January 2021, the row BR003 was collected
    on the start date and passes the region and the variant test, and yet
    fails the date test and is absent from the filtered table. *)
Lemma row_on_start_of_reversed_interval_is_dropped :
  In (mkSample 2 "BR003" (to_datetime (mkdate 2021 3 5)) "Brazil" "Delta" 29850)
     (rows df) /\
  valid (mkdate 2021 3 5) = true /\
  valid (mkdate 2021 1 15) = true /\
  In "Brazil" ["Brazil"] /\
  In "Delta" ["Delta"] /\
  date_ok (mkdate 2021 3 5) (mkdate 2021 1 15)
    (mkSample 2 "BR003" (to_datetime (mkdate 2021 3 5)) "Brazil" "Delta" 29850)
  = false /\
  exists d : Frame,
    df_filtered df [mkdate 2021 3 5; mkdate 2021 1 15] ["Brazil"] ["Delta"]
    = inr d /\
    ~ In (mkSample 2 "BR003" (to_datetime (mkdate 2021 3 5)) "Brazil" "Delta" 29850)
         (rows d).
Proof.
  split; [vm_compute; tauto|].
  repeat (split; [solve [reflexivity | simpl; tauto]|]).
  exists (of_rows []). split; [vm_compute; reflexivity|].
  simpl. tauto.
Qed.

(** C2, amended.  When the end date is not earlier than the start date, a
    row of the table collected on the start date or on the end date passes
    the date test, and it is a row of the filtered table whenever its region
    and its variant are selected. *)
Theorem date_bounds_are_inclusive (start_date end_date : date)
    (regions variants : list string) (r : Sample) :
  valid start_date = true ->
  valid end_date = true ->
  date_ltb end_date start_date = false ->
  In r (rows df) ->
  collection_date r = to_datetime start_date \/
  collection_date r = to_datetime end_date ->
  date_ok start_date end_date r = true /\
  (In (region r) regions ->
   In (variant r) variants ->
   exists d : Frame,
     df_filtered df [start_date; end_date] regions variants = inr d /\
     In r (rows d)).
Proof.
  intros Vs Ve Hle Hin Hd.
  pose proof (to_datetime_le start_date end_date Vs Ve Hle) as Hts.
  assert (Hok : date_ok start_date end_date r = true).
  { unfold date_ok. rewrite andb_true_iff, !Z.leb_le. lia. }
  split; [exact Hok|].
  intros Hr Hv. eexists. split; [apply df_filtered_df|].
  rewrite rows_of_rows. apply filter_In. split; [assumption|].
  unfold keeps, region_ok, variant_ok. rewrite Hok.
  apply existsb_eqb_In in Hr, Hv. now rewrite Hr, Hv.
Qed.

Lemma date_bounds_are_inclusive_witness :
  valid (mkdate 2021 1 15) = true /\
  valid (mkdate 2021 3 5) = true /\
  date_ltb (mkdate 2021 3 5) (mkdate 2021 1 15) = false /\
  date_ok (mkdate 2021 1 15) (mkdate 2021 3 5)
    (mkSample 2 "BR003" (to_datetime (mkdate 2021 3 5)) "Brazil" "Delta" 29850)
  = true /\
  (In "Brazil" ["Brazil"] ->
   In "Delta" ["Delta"] ->
   exists d : Frame,
     df_filtered df [mkdate 2021 1 15; mkdate 2021 3 5] ["Brazil"] ["Delta"]
     = inr d /\
     In (mkSample 2 "BR003" (to_datetime (mkdate 2021 3 5)) "Brazil" "Delta" 29850)
        (rows d)).
Proof.
  split; [reflexivity|]. split; [reflexivity|]. split; [reflexivity|].
  apply (date_bounds_are_inclusive (mkdate 2021 1 15) (mkdate 2021 3 5)
           ["Brazil"] ["Delta"]
           (mkSample 2 "BR003" (to_datetime (mkdate 2021 3 5)) "Brazil" "Delta" 29850)).
  - reflexivity.
  - reflexivity.
  - reflexivity.
  - vm_compute. tauto.
  - right. reflexivity.
Defined.

(** C4.  When the start date is later than the end date, the filter returns
    the empty table, for every selection of regions and variants; it does
    not raise, and neither does the rest of the run. *)
Theorem reversed_interval_gives_empty_view (start_date end_date : date)
    (regions variants : list string) :
  valid start_date = true ->
  valid end_date = true ->
  date_ltb end_date start_date = true ->
  df_filtered df [start_date; end_date] regions variants = inr (of_rows []) /\
  fst (dashboard (mkWidgets [start_date; end_date] regions variants) init)
  = inr tt.
Proof.
  intros Vs Ve Hlt.
  pose proof (to_datetime_lt end_date start_date Ve Vs Hlt) as Hts.
  split.
  - rewrite df_filtered_df. do 2 f_equal. apply filter_none. intros r _.
    unfold keeps, date_ok.
    destruct (Z.leb_spec (to_datetime start_date) (collection_date r));
      destruct (Z.leb_spec (collection_date r) (to_datetime end_date));
      try reflexivity.
    lia.
  - now rewrite dashboard_run.
Qed.

Lemma reversed_interval_witness :
  valid (mkdate 2021 3 12) = true /\
  valid (mkdate 2021 1 15) = true /\
  date_ltb (mkdate 2021 1 15) (mkdate 2021 3 12) = true /\
  df_filtered df [mkdate 2021 3 12; mkdate 2021 1 15]
    ["Brazil"; "Mexico"; "USA"] ["Delta"; "Gamma"; "Omicron"]
  = inr (of_rows []) /\
  fst (dashboard (mkWidgets [mkdate 2021 3 12; mkdate 2021 1 15]
                    ["Brazil"; "Mexico"; "USA"] ["Delta"; "Gamma"; "Omicron"])
         init)
  = inr tt.
Proof.
  split; [reflexivity|]. split; [reflexivity|]. split; [reflexivity|].
  apply (reversed_interval_gives_empty_view (mkdate 2021 3 12) (mkdate 2021 1 15));
    reflexivity.
Defined.

Lemma empty_selection_witness :
  ([] = @nil string \/ ["Gamma"] = []) /\
  df_filtered df [mkdate 2021 1 15; mkdate 2021 3 12] [] ["Gamma"]
  = inr (of_rows []).
Proof.
  split; [left; reflexivity|].
  apply (empty_selection_gives_empty_view (mkdate 2021 1 15) (mkdate 2021 3 12)
           [] ["Gamma"]).
  left; reflexivity.
Defined.

(* ===================================================================== *)
(** * The charts *)
(* ===================================================================== *)

Lemma combine_fst_snd {A B} (l : list (A * B)) :
  combine (map fst l) (map snd l) = l.
Proof. induction l as [|[a b] l IH]; simpl; [reflexivity | now rewrite IH]. Qed.

Lemma count_occ_variant (l : list Sample) (v : string) :
  count_occ string_dec (map variant l) v
  = length (filter (fun r => String.eqb (variant r) v) l).
Proof.
  induction l as [|x l IH]; simpl; [reflexivity|].
  destruct (string_dec (variant x) v) as [E|E].
  - rewrite E, String.eqb_refl. simpl. now rewrite IH.
  - destruct (String.eqb_spec (variant x) v); [contradiction | exact IH].
Qed.

(** C7.  On every run with a two-date tuple the three chart blocks agree:
    when the filtered table has no rows, each block puts its warning on the
    page and no chart; when it has rows, each block puts its chart on the
    page and no warning. *)
Theorem charts_warn_exactly_when_view_is_empty (start_date end_date : date)
    (regions variants : list string) :
  exists d : Frame,
    df_filtered df [start_date; end_date] regions variants = inr d /\
    fst (dashboard (mkWidgets [start_date; end_date] regions variants) init)
    = inr tt /\
    (rows d = [] ->
     page (snd (dashboard (mkWidgets [start_date; end_date] regions variants) init))
     = [Markdown "**Current number of filtered samples**: 0";
        ExpanderDataframe "Show filtered data table" d;
        Subheader "Frequency of Variants (Filtered)";
        Warning "No data available for the selected filters.";
        Subheader "Timeline of Sample Collection (Filtered)";
        Warning "No data to display in timeline.";
        Subheader "Genome Length Distribution (Filtered)";
        Warning "No data to display in box plot."]) /\
    (rows d <> [] ->
     exists t : CountsFrame,
       variant_counts d = inr t /\
       page (snd (dashboard (mkWidgets [start_date; end_date] regions variants) init))
       = [Markdown ("**Current number of filtered samples**: " ++ str (len d));
          ExpanderDataframe "Show filtered data table" d;
          Subheader "Frequency of Variants (Filtered)";
          PlotlyChart
            (Plotly.Bar "Number of Samples per Variant (Filtered)"
               (labels t) (counts t) (labels t));
          Subheader "Timeline of Sample Collection (Filtered)";
          PlotlyChart
            (Plotly.scatter d "Collection Dates by Variant and Region");
          Subheader "Genome Length Distribution (Filtered)";
          PlotlyChart (Plotly.box d "Genome Length per Variant")]).
Proof.
  eexists. split; [apply df_filtered_df|].
  rewrite dashboard_run. cbn [fst snd page]. split; [reflexivity|].
  rewrite rows_of_rows.
  destruct (filter (keeps start_date end_date regions variants) (rows df))
    as [|x l].
  - split; [reflexivity | congruence].
  - split; [discriminate|]. intros _.
    eexists. split; [reflexivity|].
    cbn [labels counts].
    destruct (length (value_counts (Variant (of_rows (x :: l)))) =? 0)%nat eqn:E.
    + apply Nat.eqb_eq, value_counts_length in E. discriminate.
    + reflexivity.
Qed.

(** C10.  For every filtered table, the table of counts behind the bar chart
    has one entry for each variant that occurs in the filtered table and no
    other entry; the count of an entry is the number of filtered rows of
    that variant; the counts do not increase from top to bottom; and they
    add up to the number of filtered rows. *)
Theorem variant_counts_table (start_date end_date : date)
    (regions variants : list string) :
  exists (d : Frame) (t : CountsFrame),
    df_filtered df [start_date; end_date] regions variants = inr d /\
    variant_counts d = inr t /\
    columns t = ["Variant"; "Count"] /\
    length (labels t) = length (counts t) /\
    NoDup (labels t) /\
    (forall v : string,
        In v (labels t) <-> exists r : Sample, In r (rows d) /\ variant r = v) /\
    (forall (v : string) (c : nat),
        In (v, c) (combine (labels t) (counts t)) ->
        c = length (filter (fun r => String.eqb (variant r) v) (rows d))) /\
    StronglySorted (fun a b : nat => (b <= a)%nat) (counts t) /\
    fold_right Nat.add 0%nat (counts t) = len d.
Proof.
  eexists. eexists. split; [apply df_filtered_df|].
  split; [reflexivity|].
  rewrite rows_of_rows. cbn [columns labels counts cindex reset_index].
  set (l := filter (keeps start_date end_date regions variants) (rows df)).
  change (Variant (of_rows l)) with (map variant l).
  destruct (value_counts_spec (map variant l)) as (Hn & Hi & Hs & Ht).
  split; [reflexivity|].
  split; [now rewrite !length_map|].
  split; [exact Hn|].
  split; [|split; [|split]].
  - intros v. split.
    + intros H. apply in_map_iff in H. destruct H as [[k c] [<- H]].
      apply Hi in H. destruct H as [H _]. apply in_map_iff in H.
      destruct H as [r [E H]]. exists r. auto.
    + intros [r [H E]].
      apply in_map_iff.
      exists (v, count_occ string_dec (map variant l) v). split; [reflexivity|].
      apply Hi. split; [|reflexivity]. apply in_map_iff. exists r. auto.
  - intros v c H. rewrite combine_fst_snd in H. apply Hi in H.
    destruct H as [_ ->]. apply count_occ_variant.
  - exact Hs.
  - unfold total in Ht. rewrite Ht. unfold len, of_rows; simpl.
    now rewrite !length_map.
Qed.

(* ===================================================================== *)
(** * The loaded table is left alone *)
(* ===================================================================== *)

(** C9.  The filter step changes no object of the store and writes nothing
    on the page: whatever the widgets return, every object that was in the
    store before the step, the loaded table among them, is the same object
    after it; and when the step returns, the filtered table it returns is
    at a new address. *)
Theorem filtering_leaves_source_unchanged (s : Session) (df_ref : nat)
    (w : Widgets) (a : nat) (o : PyObj) :
  nth_error (heap s) a = Some o ->
  nth_error (heap (snd (apply_filters df_ref w s))) a = Some o /\
  page (snd (apply_filters df_ref w s)) = page s /\
  (forall r : nat, fst (apply_filters df_ref w s) = inr r -> r <> a).
Proof.
  intros Ha.
  assert (La : (a < length (heap s))%nat) by (apply nth_error_Some; congruence).
  unfold apply_filters, frame_at, lift, new. cbn [bind Monad_App].
  destruct (nth_error (heap s) df_ref) as [[d|c]|]; cbn [fst snd heap page];
    try (split; [assumption | split; [reflexivity | discriminate]]).
  destruct (df_filtered d _ _ _) as [e|d']; cbn [fst snd heap page].
  - split; [assumption | split; [reflexivity | discriminate]].
  - split; [now apply nth_error_grow|]. split; [reflexivity|].
    intros r E. inversion E. lia.
Qed.

Lemma filtering_leaves_source_unchanged_witness :
  nth_error (heap (mkSession [FrameObj df] [])) 0 = Some (FrameObj df) /\
  nth_error
    (heap (snd (apply_filters 0
                  (mkWidgets [mkdate 2021 1 15; mkdate 2021 3 12]
                     ["Brazil"] ["Gamma"; "Delta"])
                  (mkSession [FrameObj df] [])))) 0
  = Some (FrameObj df).
Proof.
  split; [reflexivity|].
  apply (filtering_leaves_source_unchanged (mkSession [FrameObj df] []) 0
           (mkWidgets [mkdate 2021 1 15; mkdate 2021 3 12]
              ["Brazil"] ["Gamma"; "Delta"])
           0 (FrameObj df)).
  reflexivity.
Defined.

(** The same holds to the end of the run: whatever the widgets return, the
    first object of the store is the loaded table when the script stops. *)
Lemma dashboard_keeps_df (w : Widgets) :
  nth_error (heap (snd (dashboard w init))) 0 = Some (FrameObj df).
Proof.
  destruct w as [dr rs vs].
  destruct dr as [|x [|y [|z t]]];
    try (unfold dashboard; cbn [bind Monad_App]; rewrite load_data_df;
         unfold lift at 1, new at 1; cbn [init heap page length];
         erewrite apply_filters_run by reflexivity; reflexivity).
  now rewrite dashboard_run.
Qed.

(* ===================================================================== *)
(** * Further properties of the script *)
(* ===================================================================== *)

Section Lists.

Context {A : Type}.


Lemma filter_after_filter (p q : A -> bool) (l : list A) :
  filter p (filter q l) = filter (fun x => q x && p x) l.
Proof.
  induction l as [|x l IH]; simpl; [reflexivity|].
  destruct (q x); simpl; [destruct (p x)|]; now rewrite IH.
Qed.

Lemma filter_swap (p q : A -> bool) (l : list A) :
  filter p (filter q l) = filter q (filter p l).
Proof.
  rewrite !filter_after_filter. apply filter_ext. intros x. apply andb_comm.
Qed.

Lemma filter_absorb (p q : A -> bool) (l : list A) :
  (forall x, p x = true -> q x = true) ->
  filter p (filter q l) = filter p l.
Proof.
  intros H. rewrite filter_after_filter. apply filter_ext. intros x.
  destruct (p x) eqn:E; [now rewrite (H x E) | apply andb_false_r].
Qed.

End Lists.

(* --------------------------------------------------------------------- *)
(** ** Line 82: a date tuple that cannot be unpacked *)
(* --------------------------------------------------------------------- *)

(** While the user has picked only one end of the range the picker returns
    a tuple of one date (or of none).  The unpacking on line 82 then raises
    [ValueError]: the run stops with the loaded table as the only object and
    nothing of lines 90-146 on the page. *)
Theorem bad_date_tuple_stops_the_run (dr : list date)
    (regions variants : list string) :
  length dr <> 2%nat ->
  exists msg : string,
    dashboard (mkWidgets dr regions variants) init
    = (inl (ValueError msg), mkSession [FrameObj df] []).
Proof.
  intros H.
  destruct dr as [|x [|y [|z t]]]; try (simpl in H; congruence);
    unfold dashboard; cbn [bind Monad_App]; rewrite load_data_df;
    unfold lift at 1, new at 1; cbn [init heap page length];
    erewrite apply_filters_run by reflexivity;
    eexists; reflexivity.
Qed.

Lemma bad_date_tuple_witness :
  length [mkdate 2021 1 15] <> 2%nat /\
  exists msg : string,
    dashboard (mkWidgets [mkdate 2021 1 15] ["Brazil"] ["Gamma"]) init
    = (inl (ValueError msg), mkSession [FrameObj df] []).
Proof.
  split; [discriminate|].
  apply (bad_date_tuple_stops_the_run [mkdate 2021 1 15] ["Brazil"] ["Gamma"]).
  discriminate.
Defined.

(* --------------------------------------------------------------------- *)
(** ** Lines 83-88: how filters compose *)
(* --------------------------------------------------------------------- *)

Section Compose.

Variable l : list Sample.
Variables s1 e1 s2 e2 : date.
Variables r1 v1 r2 v2 : list string.

(** Two filters applied one after the other give the same table in either
    order: the rows that pass both. *)
Theorem filters_commute :
  (d <- df_filtered (of_rows l) [s1; e1] r1 v1 ;;
   df_filtered d [s2; e2] r2 v2)
  = (d <- df_filtered (of_rows l) [s2; e2] r2 v2 ;;
     df_filtered d [s1; e1] r1 v1) /\
  (d <- df_filtered (of_rows l) [s1; e1] r1 v1 ;;
   df_filtered d [s2; e2] r2 v2)
  = inr (of_rows (filter (fun r => keeps s1 e1 r1 v1 r && keeps s2 e2 r2 v2 r) l)).
Proof.
  rewrite !df_filtered_of_rows. cbn [bind Monad_either].
  rewrite !df_filtered_of_rows. split.
  - now rewrite filter_swap.
  - now rewrite filter_after_filter.
Qed.

(** Narrowing in steps.  When the second filter is at least as wide as the
    first in all three respects, every row of the narrow view is a row of
    the wide view, and the narrow filter applied to the wide view gives the
    narrow view of the whole table. *)
Theorem narrowing_in_steps :
  to_datetime s2 <= to_datetime s1 ->
  to_datetime e1 <= to_datetime e2 ->
  incl r1 r2 ->
  incl v1 v2 ->
  exists narrow wide : Frame,
    df_filtered (of_rows l) [s1; e1] r1 v1 = inr narrow /\
    df_filtered (of_rows l) [s2; e2] r2 v2 = inr wide /\
    incl (rows narrow) (rows wide) /\
    df_filtered wide [s1; e1] r1 v1 = inr narrow.
Proof.
  intros Hs He Hr Hv.
  assert (K : forall r, keeps s1 e1 r1 v1 r = true -> keeps s2 e2 r2 v2 r = true).
  { intros r. rewrite !keeps_spec. intros (Hd & Hir & Hiv).
    split; [lia|]. split; [now apply Hr | now apply Hv]. }
  eexists. eexists. split; [apply df_filtered_of_rows|].
  split; [apply df_filtered_of_rows|].
  rewrite !rows_of_rows. split.
  - intros r H. apply filter_In in H. apply filter_In. split; [tauto|].
    apply K. tauto.
  - rewrite df_filtered_of_rows. now rewrite (filter_absorb _ _ l K).
Qed.

End Compose.

Lemma narrowing_in_steps_witness :
  to_datetime (mkdate 2021 1 15) <= to_datetime (mkdate 2021 2 1) /\
  to_datetime (mkdate 2021 2 28) <= to_datetime (mkdate 2021 3 12) /\
  incl ["Brazil"] ["Brazil"; "USA"] /\
  incl ["Gamma"] ["Gamma"; "Delta"] /\
  exists narrow wide : Frame,
    df_filtered (of_rows (rows df)) [mkdate 2021 2 1; mkdate 2021 2 28]
      ["Brazil"] ["Gamma"] = inr narrow /\
    df_filtered (of_rows (rows df)) [mkdate 2021 1 15; mkdate 2021 3 12]
      ["Brazil"; "USA"] ["Gamma"; "Delta"] = inr wide /\
    incl (rows narrow) (rows wide) /\
    df_filtered wide [mkdate 2021 2 1; mkdate 2021 2 28] ["Brazil"] ["Gamma"]
    = inr narrow.
Proof.
  assert (H1 : to_datetime (mkdate 2021 1 15) <= to_datetime (mkdate 2021 2 1))
    by (vm_compute; discriminate).
  assert (H2 : to_datetime (mkdate 2021 2 28) <= to_datetime (mkdate 2021 3 12))
    by (vm_compute; discriminate).
  assert (H3 : incl ["Brazil"] ["Brazil"; "USA"])
    by (intros x [<- | []]; simpl; tauto).
  assert (H4 : incl ["Gamma"] ["Gamma"; "Delta"])
    by (intros x [<- | []]; simpl; tauto).
  repeat (split; [assumption|]).
  exact (narrowing_in_steps (rows df) (mkdate 2021 2 1) (mkdate 2021 2 28)
           (mkdate 2021 1 15) (mkdate 2021 3 12)
           ["Brazil"] ["Gamma"] ["Brazil"; "USA"] ["Gamma"; "Delta"]
           H1 H2 H3 H4).
Defined.

(* --------------------------------------------------------------------- *)
(** ** Lines 56-79: the options and the defaults of the widgets *)
(* --------------------------------------------------------------------- *)

Section Options.

Lemma In_unique (x : string) (s : list string) : In x (unique s) <-> In x s.
Proof.
  induction s as [|y s IH]; simpl; [tauto|].
  rewrite filter_In, IH, negb_true_iff, String.eqb_neq.
  destruct (string_dec y x); intuition.
Qed.

Lemma NoDup_unique (s : list string) : NoDup (unique s).
Proof.
  induction s as [|y s IH]; simpl; constructor.
  - rewrite filter_In, String.eqb_refl. intros [_ H]. discriminate.
  - now apply NoDup_filter.
Qed.

Lemma insert_sorted_perm (x : string) (l : list string) :
  Permutation (insert_sorted x l) (x :: l).
Proof.
  induction l as [|y l IH]; simpl; [apply Permutation_refl|].
  destruct (String.leb x y); [apply Permutation_refl|].
  eapply perm_trans; [apply perm_skip, IH | apply perm_swap].
Qed.

Lemma sorted_perm (l : list string) : Permutation (sorted l) l.
Proof.
  induction l as [|x l IH]; simpl; [constructor|].
  eapply perm_trans; [apply insert_sorted_perm | now apply perm_skip].
Qed.

Lemma insert_sorted_ascending (x : string) (l : list string) :
  Sorted (fun a b => String.leb a b = true) l ->
  Sorted (fun a b => String.leb a b = true) (insert_sorted x l).
Proof.
  induction l as [|y l IH]; simpl; intros H.
  - repeat constructor.
  - destruct (String.leb x y) eqn:E.
    + constructor; [assumption | constructor; exact E].
    + assert (Hyx : String.leb y x = true).
      { destruct (String.leb_total x y); congruence. }
      apply Sorted_inv in H. destruct H as [Hs Hh].
      constructor; [now apply IH|].
      destruct l as [|z l]; simpl.
      * constructor. exact Hyx.
      * destruct (String.leb x z); constructor;
          [exact Hyx | now apply HdRel_inv in Hh].
Qed.

Lemma In_sorted (x : string) (l : list string) : In x (sorted l) <-> In x l.
Proof.
  split; apply Permutation_in;
    [apply sorted_perm | apply Permutation_sym, sorted_perm].
Qed.

(** The options offered by a multi-selection built as on lines 66 and 74:
    every value of the column, once, in ascending order, and nothing else. *)
Theorem options_are_the_distinct_values_in_order (s : list string) :
  NoDup (sorted (unique s)) /\
  Sorted (fun a b => String.leb a b = true) (sorted (unique s)) /\
  forall x : string, In x (sorted (unique s)) <-> In x s.
Proof.
  split; [|split].
  - eapply Permutation_NoDup;
      [apply Permutation_sym, sorted_perm | apply NoDup_unique].
  - unfold sorted. induction (unique s) as [|x l IH]; simpl;
      [constructor | now apply insert_sorted_ascending].
  - intros x. now rewrite In_sorted, In_unique.
Qed.






End Options.


(* --------------------------------------------------------------------- *)
(** ** Lines 86-87: selected values the table does not hold *)
(* --------------------------------------------------------------------- *)

(** A selection none of whose values occurs in the column it is tested
    against matches no row, whatever the other two tests say: the filter
    returns the empty table. *)
Theorem absent_values_select_nothing (l : list Sample)
    (start_date end_date : date) (regions variants : list string) :
  (forall x, In x regions -> ~ In x (Region (of_rows l))) \/
  (forall x, In x variants -> ~ In x (Variant (of_rows l))) ->
  df_filtered (of_rows l) [start_date; end_date] regions variants
  = inr (of_rows []).
Proof.
  intros H. rewrite df_filtered_of_rows. do 2 f_equal.
  apply filter_none. intros r Hr.
  destruct (keeps start_date end_date regions variants r) eqn:E; [|reflexivity].
  apply keeps_spec in E. destruct E as (_ & Hir & Hiv). exfalso.
  destruct H as [H | H].
  - apply (H _ Hir). cbn [Region of_rows]. now apply in_map.
  - apply (H _ Hiv). cbn [Variant of_rows]. now apply in_map.
Qed.

Lemma absent_values_witness :
  ((forall x, In x ["Peru"] -> ~ In x (Region (of_rows (rows df)))) \/
   (forall x, In x ["Gamma"] -> ~ In x (Variant (of_rows (rows df))))) /\
  df_filtered (of_rows (rows df)) [mkdate 2021 1 15; mkdate 2021 3 12]
    ["Peru"] ["Gamma"]
  = inr (of_rows []).
Proof.
  assert (H : forall x, In x ["Peru"] -> ~ In x (Region (of_rows (rows df)))).
  { intros x [<- | []] Hin. simpl in Hin.
    repeat (destruct Hin as [Hin | Hin]; [discriminate|]). exact Hin. }
  split; [left; exact H|].
  exact (absent_values_select_nothing (rows df) (mkdate 2021 1 15)
           (mkdate 2021 3 12) ["Peru"] ["Gamma"] (or_introl H)).
Defined.

(* --------------------------------------------------------------------- *)
(** ** Lines 84-85: the date test in calendar terms *)
(* --------------------------------------------------------------------- *)

(** The date test compares timestamps; on calendar dates that is the test
    that the collection date is neither before the start date nor after the
    end date. *)
Theorem date_test_follows_the_calendar (start_date end_date c : date)
    (r : Sample) :
  valid start_date = true ->
  valid end_date = true ->
  valid c = true ->
  collection_date r = to_datetime c ->
  (date_ok start_date end_date r = true <->
   date_ltb c start_date = false /\ date_ltb end_date c = false).
Proof.
  intros Vs Ve Vc E. unfold date_ok. rewrite E, andb_true_iff, !Z.leb_le.
  split.
  - intros [H1 H2]. split.
    + destruct (date_ltb c start_date) eqn:L; [|reflexivity].
      pose proof (to_datetime_lt c start_date Vc Vs L). lia.
    + destruct (date_ltb end_date c) eqn:L; [|reflexivity].
      pose proof (to_datetime_lt end_date c Ve Vc L). lia.
  - intros [H1 H2]. split; now apply to_datetime_le.
Qed.

Lemma date_test_witness :
  valid (mkdate 2021 2 1) = true /\
  valid (mkdate 2021 2 28) = true /\
  valid (mkdate 2021 2 10) = true /\
  (date_ok (mkdate 2021 2 1) (mkdate 2021 2 28)
     (mkSample 1 "BR002" (to_datetime (mkdate 2021 2 10)) "Brazil" "Gamma" 29903)
   = true <->
   date_ltb (mkdate 2021 2 10) (mkdate 2021 2 1) = false /\
   date_ltb (mkdate 2021 2 28) (mkdate 2021 2 10) = false).
Proof.
  split; [reflexivity|]. split; [reflexivity|]. split; [reflexivity|].
  apply (date_test_follows_the_calendar (mkdate 2021 2 1) (mkdate 2021 2 28)
           (mkdate 2021 2 10)
           (mkSample 1 "BR002" (to_datetime (mkdate 2021 2 10)) "Brazil" "Gamma" 29903));
    reflexivity.
Defined.

(* --------------------------------------------------------------------- *)
(** ** Line 83: the filtered rows keep their index labels *)
(* --------------------------------------------------------------------- *)

Lemma StronglySorted_map_filter {A} (f : A -> nat) (p : A -> bool) (l : list A) :
  StronglySorted lt (map f l) -> StronglySorted lt (map f (filter p l)).
Proof.
  induction l as [|x l IH]; simpl; intros H; [constructor|].
  apply StronglySorted_inv in H. destruct H as [Hs Hf].
  destruct (p x); simpl; [|now apply IH].
  constructor; [now apply IH|].
  rewrite Forall_forall in *. intros y Hy. apply Hf.
  apply in_map_iff in Hy. destruct Hy as [z [<- Hz]].
  apply filter_In in Hz. apply in_map. tauto.
Qed.

Lemma StronglySorted_seq (a n : nat) : StronglySorted lt (seq a n).
Proof.
  revert a. induction n as [|n IH]; intros a; simpl; constructor; [apply IH|].
  apply Forall_forall. intros y Hy. apply in_seq in Hy. lia.
Qed.

(** Selection by a mask does not renumber.  In a table numbered from zero,
    as [pd.DataFrame] numbers it, a row of the filtered table carries the
    label it had before: it is the row found at that position of the
    unfiltered table; and the labels of the filtered table increase from top
    to bottom. *)
Theorem filtered_rows_keep_their_labels (l : list Sample)
    (start_date end_date : date) (regions variants : list string) :
  index (of_rows l) = seq 0 (length l) ->
  exists d : Frame,
    df_filtered (of_rows l) [start_date; end_date] regions variants = inr d /\
    (forall r : Sample, In r (rows d) -> nth_error l (label r) = Some r) /\
    StronglySorted lt (index d).
Proof.
  intros Hix. cbn [index of_rows] in Hix.
  eexists. split; [apply df_filtered_of_rows|].
  rewrite rows_of_rows. cbn [index of_rows]. split.
  - intros r Hr. apply filter_In in Hr. destruct Hr as [Hr _].
    apply In_nth_error in Hr. destruct Hr as [i Hi].
    assert (Hl : nth_error (map label l) i = Some (label r))
      by (rewrite nth_error_map, Hi; reflexivity).
    rewrite Hix, nth_error_seq in Hl.
    destruct (i <? length l)%nat; [|discriminate].
    inversion Hl; subst. exact Hi.
  - apply StronglySorted_map_filter. rewrite Hix. apply StronglySorted_seq.
Qed.

Lemma filtered_rows_keep_their_labels_witness :
  index (of_rows (rows df)) = seq 0 (length (rows df)) /\
  exists d : Frame,
    df_filtered (of_rows (rows df)) [mkdate 2021 2 1; mkdate 2021 3 12]
      ["Mexico"; "USA"] ["Delta"; "Omicron"] = inr d /\
    (forall r : Sample, In r (rows d) -> nth_error (rows df) (label r) = Some r) /\
    StronglySorted lt (index d).
Proof.
  split; [reflexivity|].
  apply (filtered_rows_keep_their_labels (rows df) (mkdate 2021 2 1)
           (mkdate 2021 3 12) ["Mexico"; "USA"] ["Delta"; "Omicron"]).
  reflexivity.
Defined.

(* --------------------------------------------------------------------- *)
(** ** Lines 104-117: the bars and the selection of variants *)
(* --------------------------------------------------------------------- *)

Lemma fold_bump_same (v : string) (n k : nat) :
  fold_left (fun t x => bump x t) (repeat v n) [(v, k)] = [(v, (k + n)%nat)].
Proof.
  revert k. induction n as [|n IH]; intros k; simpl.
  - now rewrite Nat.add_0_r.
  - rewrite String.eqb_refl, IH. do 2 f_equal. lia.
Qed.

Lemma value_counts_repeat (v : string) (n : nat) :
  value_counts (repeat v (S n)) = [(v, S n)].
Proof.
  unfold value_counts, count_table. simpl. now rewrite fold_bump_same.
Qed.

Lemma all_equal_repeat (v : string) (s : list string) :
  (forall x, In x s -> x = v) -> s = repeat v (length s).
Proof.
  induction s as [|y s IH]; simpl; intros H; [reflexivity|].
  rewrite (H y (or_introl eq_refl)). f_equal. apply IH. intros x Hx.
  apply H. now right.
Qed.

Section Bars.

Variable l : list Sample.
Variables start_date end_date : date.
Variable regions : list string.

(** No bar for a variant that is not selected: every label of the table of
    counts is one of the selected variants. *)
Theorem bars_show_selected_variants_only (variants : list string) :
  exists (d : Frame) (t : CountsFrame),
    df_filtered (of_rows l) [start_date; end_date] regions variants = inr d /\
    variant_counts d = inr t /\
    forall v : string, In v (labels t) -> In v variants.
Proof.
  eexists. eexists. split; [apply df_filtered_of_rows|].
  split; [reflexivity|].
  cbn [labels reset_index]. intros v Hv.
  apply in_map_iff in Hv. destruct Hv as [[k c] [<- Hk]].
  apply value_counts_spec in Hk. destruct Hk as [Hk _].
  cbn [Variant of_rows] in Hk. apply in_map_iff in Hk.
  destruct Hk as [r [<- Hr]]. apply filter_In in Hr.
  destruct Hr as [_ Hr]. apply keeps_spec in Hr. cbn [fst]. tauto.
Qed.

(** With one variant selected the table of counts has at most one row: none
    when no row passes the filter, and otherwise the one row of that
    variant, whose count is the number of filtered rows. *)
Theorem one_selected_variant_gives_one_bar (v : string) :
  exists (d : Frame) (t : CountsFrame),
    df_filtered (of_rows l) [start_date; end_date] regions [v] = inr d /\
    variant_counts d = inr t /\
    (rows d = [] -> labels t = [] /\ counts t = []) /\
    (rows d <> [] -> labels t = [v] /\ counts t = [len d]).
Proof.
  eexists. eexists. split; [apply df_filtered_of_rows|].
  split; [reflexivity|].
  rewrite rows_of_rows. cbn [labels counts reset_index].
  set (k := filter (keeps start_date end_date regions [v]) l).
  assert (E : Variant (of_rows k) = repeat v (length k)).
  { cbn [Variant of_rows]. rewrite <- (length_map variant k) at 1.
    apply all_equal_repeat. intros x Hx. apply in_map_iff in Hx.
    destruct Hx as [r [<- Hr]]. apply filter_In in Hr. destruct Hr as [_ Hr].
    apply keeps_spec in Hr. destruct Hr as (_ & _ & [Hv | []]). now symmetry. }
  rewrite E. unfold len. cbn [index of_rows]. rewrite length_map.
  destruct k as [|x k']; split; try congruence; intros _.
  - split; reflexivity.
  - cbn [length]. rewrite value_counts_repeat. split; reflexivity.
Qed.

End Bars.

(* --------------------------------------------------------------------- *)
(** ** Lines 102-146: the charts and the store *)
(* --------------------------------------------------------------------- *)

(** The chart blocks change no object that was in the store before them.
    The renaming of the columns on line 105 is done in place, but on the
    table of counts made on line 104, which is a new object. *)
Theorem charts_leave_the_store_unchanged (s : Session) (r a : nat) (o : PyObj) :
  nth_error (heap s) a = Some o ->
  nth_error (heap (snd (charts r s))) a = Some o.
Proof.
  intros Ha.
  destruct (nth_error (heap s) r) as [[d|c]|] eqn:E.
  - rewrite (charts_run s r d E). cbn [snd heap]. now apply nth_error_grow.
  - unfold charts, bar_chart, frame_at, emit.
    cbn [bind Monad_App heap page]. rewrite E. exact Ha.
  - unfold charts, bar_chart, frame_at, emit.
    cbn [bind Monad_App heap page]. rewrite E. exact Ha.
Qed.

Lemma charts_leave_the_store_unchanged_witness :
  nth_error (heap (mkSession [FrameObj df; FrameObj (of_rows [])] [])) 0
  = Some (FrameObj df) /\
  nth_error
    (heap (snd (charts 1 (mkSession [FrameObj df; FrameObj (of_rows [])] []))))
    0
  = Some (FrameObj df).
Proof.
  split; [reflexivity|].
  apply (charts_leave_the_store_unchanged
           (mkSession [FrameObj df; FrameObj (of_rows [])] []) 1 0 (FrameObj df)).
  reflexivity.
Defined.

(* --------------------------------------------------------------------- *)
(** ** Line 83: what the filter keeps of the table's invariants *)
(* --------------------------------------------------------------------- *)

Lemma distinct_ids_filter (keep : Sample -> bool) (l : list Sample) :
  NoDup (map sample_id l) -> NoDup (map sample_id (filter keep l)).
Proof.
  intros H. induction l as [|x l IH]; simpl in *; [constructor|].
  apply NoDup_cons_iff in H. destruct H as [Hn Hd].
  destruct (keep x); simpl; [|now apply IH].
  apply NoDup_cons_iff. split; [|now apply IH].
  intros Hin. apply Hn. apply in_map_iff in Hin.
  destruct Hin as [y [E Hy]]. apply filter_In in Hy.
  rewrite <- E. apply in_map. tauto.
Qed.

(** A table whose sample identifiers are all different and whose genome
    lengths are all positive is filtered into a table of the same kind, with
    columns of one common length. *)
Theorem filter_keeps_the_table_well_formed (l : list Sample)
    (start_date end_date : date) (regions variants : list string) :
  NoDup (Sample_ID (of_rows l)) ->
  Forall (fun g => 0 < g) (Genome_Length (of_rows l)) ->
  exists d : Frame,
    df_filtered (of_rows l) [start_date; end_date] regions variants = inr d /\
    NoDup (Sample_ID d) /\
    Forall (fun g => 0 < g) (Genome_Length d) /\
    length (Sample_ID d) = len d /\
    length (Date d) = len d /\
    length (Region d) = len d /\
    length (Variant d) = len d /\
    length (Genome_Length d) = len d.
Proof.
  intros Hn Hg. cbn [Sample_ID Genome_Length of_rows] in Hn, Hg.
  eexists. split; [apply df_filtered_of_rows|].
  unfold len.
  cbn [index Sample_ID Date Region Variant Genome_Length of_rows].
  rewrite !length_map. split; [now apply distinct_ids_filter|].
  split; [|repeat split].
  rewrite Forall_forall in *. intros g Hin. apply Hg.
  apply in_map_iff in Hin. destruct Hin as [r [<- Hr]].
  apply filter_In in Hr. apply in_map. tauto.
Qed.

Lemma filter_keeps_the_table_well_formed_witness :
  NoDup (Sample_ID (of_rows (rows df))) /\
  Forall (fun g => 0 < g) (Genome_Length (of_rows (rows df))) /\
  exists d : Frame,
    df_filtered (of_rows (rows df)) [mkdate 2021 1 15; mkdate 2021 3 12]
      ["USA"] ["Delta"; "Gamma"] = inr d /\
    NoDup (Sample_ID d) /\
    Forall (fun g => 0 < g) (Genome_Length d) /\
    length (Sample_ID d) = len d /\
    length (Date d) = len d /\
    length (Region d) = len d /\
    length (Variant d) = len d /\
    length (Genome_Length d) = len d.
Proof.
  assert (Hn : NoDup (Sample_ID (of_rows (rows df)))).
  { apply (NoDup_count_occ' string_dec). intros x Hx.
    repeat (destruct Hx as [<- | Hx]; [reflexivity|]). destruct Hx. }
  assert (Hg : Forall (fun g => 0 < g) (Genome_Length (of_rows (rows df)))).
  { repeat constructor. }
  split; [exact Hn|]. split; [exact Hg|].
  exact (filter_keeps_the_table_well_formed (rows df) (mkdate 2021 1 15)
           (mkdate 2021 3 12) ["USA"] ["Delta"; "Gamma"] Hn Hg).
Defined.
